(** * Invoice approval and posting pipeline (coplane_public_demo)

    Shallow embedding of [src/app/flows/process_invoice.py] and
    [src/app/flows/process_invoice_with_entity.py] (with the [Invoice]
    entity of [src/app/db/entities.py]).

    Python [float] values are modelled as rationals [Q]: every finite
    double is a rational, comparisons of finite doubles are exact, and the
    only sums the code computes ([0 + A + 0.0], [0 + 0.0 + A]) are exact in
    binary floating point as well.  [datetime] values are only passed
    around, so they are modelled as [Z] (a POSIX timestamp). *)

From Stdlib Require Import List String Ascii QArith Qabs ZArith NArith Bool.
From Stdlib Require Import Decimal DecimalN Lia.
Import ListNotations.
Open Scope string_scope.

(* ------------------------------------------------------------------ *)
(** ** Python values used by the code *)

Definition datetime := Z.

(** A [PlanarFile] is an opaque reference to an uploaded file. *)
Definition PlanarFile := string.

(** Python exceptions raised by the steps. *)
Inductive exn :=
| ValueError (msg : string)
| AttributeError (msg : string).

(** [str(n)] for a non-negative Python [int], digit by digit. *)
Fixpoint string_of_uint (d : uint) : string :=
  match d with
  | Nil => ""
  | D0 d' => String "0" (string_of_uint d')
  | D1 d' => String "1" (string_of_uint d')
  | D2 d' => String "2" (string_of_uint d')
  | D3 d' => String "3" (string_of_uint d')
  | D4 d' => String "4" (string_of_uint d')
  | D5 d' => String "5" (string_of_uint d')
  | D6 d' => String "6" (string_of_uint d')
  | D7 d' => String "7" (string_of_uint d')
  | D8 d' => String "8" (string_of_uint d')
  | D9 d' => String "9" (string_of_uint d')
  end.

Definition py_str_int (n : N) : string := string_of_uint (N.to_uint n).

(** [a < b] on floats, as a boolean. *)
Definition Qltb (a b : Q) : bool := negb (Qle_bool b a).

(** Python's [sum(xs)]: starts from the integer [0] and adds left to right. *)
Definition py_sum (xs : list Q) : Q := fold_left Qplus xs 0.

(* ------------------------------------------------------------------ *)
(** ** Data model of [process_invoice.py] *)

Record InvoiceData := mkInvoiceData {
  file : PlanarFile;
  vendor : string;
  amount : Q;
  description : string;
  invoice_date : datetime;
  invoice_number : string
}.

(** [class InvoiceDataReviewed(InvoiceData): approved: bool] *)
Record InvoiceDataReviewed := mkInvoiceDataReviewed {
  reviewed_data : InvoiceData;
  approved : bool
}.

Record RuleInput := mkRuleInput { ri_amount : Q; ri_threshold : Q }.

Record RuleOutput := mkRuleOutput { ro_approved : bool; ro_reason : string }.

Record JournalEntryLine := mkJournalEntryLine {
  account_name : string;
  debit : Q;
  credit : Q
}.

Record JournalEntry := mkJournalEntry {
  entry_date : datetime;
  je_invoice_number : string;
  je_vendor : string;
  je_description : string;
  lines : list JournalEntryLine;
  workbook : option PlanarFile
}.

(** The literal [0.01] of [JournalEntry.is_balanced]. *)
Definition balance_epsilon : Q := 1 # 100.

(** [JournalEntry.is_balanced] *)
Definition is_balanced (je : JournalEntry) : bool :=
  let total_debits := py_sum (map debit (lines je)) in
  let total_credits := py_sum (map credit (lines je)) in
  Qltb (Qabs (total_debits - total_credits)) balance_epsilon.

Record GLApiResponse := mkGLApiResponse {
  success : bool;
  entry_id : string;
  message : string;
  timestamp : datetime
}.

(** State of a [MockGeneralLedgerClient] object. *)
Record MockGeneralLedgerClient := mkMockGeneralLedgerClient {
  base_url : string;
  api_key : string;
  entry_counter : N
}.

(** [MockGeneralLedgerClient.__init__]; [api_key or "..."] falls back on
    the mock key for [None] and for the (falsy) empty string. *)
Definition MockGeneralLedgerClient_init (base_url : string) (api_key : option string)
  : MockGeneralLedgerClient :=
  mkMockGeneralLedgerClient base_url
    (match api_key with
     | Some k => if String.eqb k "" then "mock_api_key_12345" else k
     | None => "mock_api_key_12345"
     end)
    1000.

(** [MockGeneralLedgerClient()] with the default arguments. *)
Definition MockGeneralLedgerClient_default : MockGeneralLedgerClient :=
  MockGeneralLedgerClient_init "https://api.mockgl.example.com" None.

(** [MockGeneralLedgerClient.post_journal_entry]: returns the response and
    the client object after the call ([self.entry_counter] is mutated).
    [now] is the value of [datetime.now()]; the [asyncio.sleep] has no
    observable effect. *)
Definition post_journal_entry (self : MockGeneralLedgerClient) (journal_entry : JournalEntry)
  (now : datetime) : GLApiResponse * MockGeneralLedgerClient :=
  if negb (is_balanced journal_entry) then
    (mkGLApiResponse false "" "Journal entry is not balanced" now, self)
  else
    let self' := mkMockGeneralLedgerClient (base_url self) (api_key self)
                   (entry_counter self + 1) in
    let entry_id := "JE-" ++ py_str_int (entry_counter self') in
    (mkGLApiResponse true entry_id
       ("Journal entry posted successfully for vendor " ++ je_vendor journal_entry) now,
     self').

(** The [JournalEntry(...)] built by [write_invoice_to_general_ledger]. *)
Definition build_journal_entry (invoice : InvoiceData) : JournalEntry :=
  mkJournalEntry
    (invoice_date invoice)
    (invoice_number invoice)
    (vendor invoice)
    ("Invoice from " ++ vendor invoice ++ " - Invoice #" ++ invoice_number invoice)
    [ mkJournalEntryLine "Office Supplies Expense" (amount invoice) 0;
      mkJournalEntryLine ("Accounts Payable - " ++ vendor invoice) 0 (amount invoice) ]
    None.

(* ------------------------------------------------------------------ *)
(** ** Data model of the [Invoice] entity ([src/app/db/entities.py]) *)

(** Column values of an entity instance. *)
Inductive pyval :=
| PyStr (s : string)
| PyFloat (q : Q)
| PyDatetime (d : datetime)
| PyNone.

(** An instance of the [Invoice] entity: its attributes by name. *)
Definition row := list (string * pyval).

(** The columns of [class Invoice(PlanarBaseEntity, TimestampMixin, table=True)]:
    the five fields the [TimestampMixin] adds (see the comment in
    entities.py) and the two declared fields [vendor] and [amount]. *)
Definition invoice_columns : list string :=
  ["id"; "created_at"; "updated_at"; "created_by"; "updated_by"; "vendor"; "amount"].

(* ------------------------------------------------------------------ *)
(** ** Effects: exceptions, the invoice table and a trace of the calls *)

(** The observable calls a workflow run makes, in order. *)
Inductive event :=
| EvExtract (f : PlanarFile)                       (* the invoice agent *)
| EvDupQuery (column : string) (value : pyval)     (* one SELECT on the invoice table *)
| EvRule (input : RuleInput)                       (* the approval rule *)
| EvHumanReview (inv : InvoiceData)                (* human_review in process_invoice.py *)
| EvHumanReviewRow (inv : row)                     (* human_review in process_invoice_with_entity.py *)
| EvExport (je : JournalEntry)                     (* create_journal_entry_excel *)
| EvPost (je : JournalEntry) (resp : GLApiResponse). (* post_journal_entry *)

Record world := mkWorld {
  w_trace : list event;
  w_store : list row        (* the rows of the [invoice] table *)
}.

(** A step: may raise, reads and extends the world. *)
Definition M (A : Type) : Type := world -> (exn + A) * world.

Definition ret {A} (a : A) : M A := fun w => (inr a, w).

Definition bind {A B} (m : M A) (k : A -> M B) : M B :=
  fun w => match m w with
           | (inl e, w') => (inl e, w')
           | (inr a, w') => k a w'
           end.

Definition raise {A} (e : exn) : M A := fun w => (inl e, w).

Definition lift {A} (r : exn + A) : M A := fun w => (r, w).

Definition emit (e : event) : M unit :=
  fun w => (inr tt, mkWorld (w_trace w ++ [e]) (w_store w)).

Definition get_store : M (list row) := fun w => (inr (w_store w), w).

Notation "x <- m ;; k" := (bind m (fun x => k))
  (at level 61, m at next level, right associativity).
Notation "m ;;; k" := (bind m (fun _ => k))
  (at level 61, right associativity).

(* ------------------------------------------------------------------ *)
(** ** [process_invoice.py] *)

Section ProcessInvoice.

(** The collaborators the workflow calls but whose behaviour is outside
    this file: the text of [f"{x}"] for a float [x]; the LLM agent
    [invoice_agent]; the answer of the person doing [human_review]
    (to the task input and the suggested data); the spreadsheet written and
    uploaded by [create_journal_entry_excel]; and [datetime.now()]. *)
Variable float_str : Q -> string.
Variable invoice_agent : PlanarFile -> exn + InvoiceData.
Variable human_review : InvoiceData -> InvoiceData -> InvoiceDataReviewed.
Variable create_journal_entry_excel : JournalEntry -> exn + PlanarFile.
Variable now : datetime.

(** The [@rule] [auto_approver]. *)
Definition auto_approver (input : RuleInput) : RuleOutput :=
  mkRuleOutput (Qltb (ri_amount input) (ri_threshold input))
    ("Amount is under $" ++ float_str (ri_threshold input)).

(** step 1: [extract_invoice] *)
Definition extract_invoice (invoice_file : PlanarFile) : M InvoiceData :=
  emit (EvExtract invoice_file);;;
  lift (invoice_agent invoice_file).

(** step 2: [maybe_approve]; the literal threshold [1000] becomes the
    float [1000.0] in [RuleInput]. *)
Definition maybe_approve (invoice : InvoiceData) : M InvoiceDataReviewed :=
  let input := mkRuleInput (amount invoice) 1000 in
  emit (EvRule input);;;
  let auto_approve_result := auto_approver input in
  if ro_approved auto_approve_result then
    ret (mkInvoiceDataReviewed invoice true)
  else
    emit (EvHumanReview invoice);;;
    let reviewed_invoice := human_review invoice invoice in
    if approved reviewed_invoice then ret reviewed_invoice
    else raise (ValueError "Invoice was not approved by human reviewer").

(** step 3: [write_invoice_to_general_ledger].  It receives the reviewed
    invoice and only reads its [InvoiceData] fields.  The client is created
    afresh inside the step, as in the source. *)
Definition write_invoice_to_general_ledger (invoice : InvoiceData) : M JournalEntry :=
  let journal_entry := build_journal_entry invoice in
  if negb (is_balanced journal_entry) then
    raise (ValueError "Journal entry is not balanced!")
  else
    emit (EvExport journal_entry);;;
    excel_file <- lift (create_journal_entry_excel journal_entry);;
    let journal_entry :=
      mkJournalEntry (entry_date journal_entry) (je_invoice_number journal_entry)
        (je_vendor journal_entry) (je_description journal_entry)
        (lines journal_entry) (Some excel_file) in
    let gl_client := MockGeneralLedgerClient_default in
    let '(api_response, _) := post_journal_entry gl_client journal_entry now in
    emit (EvPost journal_entry api_response);;;
    if negb (success api_response) then
      raise (ValueError ("Failed to post journal entry: " ++ message api_response))
    else ret journal_entry.

(** [if invoice_approved:] tests the truth value of a pydantic model
    instance, which defines neither [__bool__] nor [__len__]: always true. *)
Definition model_truthy (_ : InvoiceDataReviewed) : bool := true.

(** The [@workflow] [process_invoice]; [None] is the implicit return. *)
Definition process_invoice (invoice_file : PlanarFile) : M (option JournalEntry) :=
  invoice <- extract_invoice invoice_file;;
  invoice_approved <- maybe_approve invoice;;
  if model_truthy invoice_approved then
    je <- write_invoice_to_general_ledger (reviewed_data invoice_approved);;
    ret (Some je)
  else ret None.

End ProcessInvoice.

(* ------------------------------------------------------------------ *)
(** ** [process_invoice_with_entity.py] *)

(** [str(x)] of a column value, given the texts of floats and datetimes. *)
Definition py_format (float_str : Q -> string) (datetime_str : datetime -> string)
  (v : pyval) : string :=
  match v with
  | PyStr s => s
  | PyFloat q => float_str q
  | PyDatetime d => datetime_str d
  | PyNone => "None"
  end.

(** Attribute lookup on an entity instance. *)
Definition row_get (r : row) (name : string) : option pyval :=
  match find (fun p => String.eqb (fst p) name) r with
  | Some (_, v) => Some v
  | None => None
  end.

(** SQL [=] between a column value and a bound parameter
    (a comparison with NULL is never true). *)
Definition sql_eq (a b : pyval) : bool :=
  match a, b with
  | PyStr x, PyStr y => String.eqb x y
  | PyFloat x, PyFloat y => Qeq_bool x y
  | PyDatetime x, PyDatetime y => Z.eqb x y
  | _, _ => false
  end.

(** The [ScalarResult] returned by [session.exec(select(Invoice)...)]:
    the rows not fetched yet. *)
Record ScalarResult := mkScalarResult { sr_remaining : list row }.

(** [result.all()]: fetches every remaining row and exhausts the result. *)
Definition scalar_all (res : ScalarResult) : list row * ScalarResult :=
  (sr_remaining res, mkScalarResult []).

(** [x == e] for a column value [x] and an [Invoice] instance [e]: neither
    [str.__eq__] nor the pydantic model's [__eq__] accepts the other type,
    so Python falls back to identity, which fails. *)
Definition py_eq_val_row (x : pyval) (e : row) : bool := false.

(** [x in result]: [ScalarResult] has no [__contains__], so [in] iterates
    the rows not fetched yet and compares each with [==]. *)
Definition py_in (x : pyval) (res : ScalarResult) : bool :=
  existsb (py_eq_val_row x) (sr_remaining res).

Module WithEntity.

(** The table's columns are a parameter of the steps below, so the same
    code runs against [invoice_columns] (the entity as declared) and against
    a table that also has an [invoice_number] column. *)
Definition invoice_columns_with_number : list string :=
  invoice_columns ++ ["invoice_number"].

(** [Invoice.invoice_number]: a class attribute exists only for a column. *)
Definition class_column (schema : list string) (name : string) : M string :=
  if existsb (String.eqb name) schema then ret name
  else raise (AttributeError ("type object 'Invoice' has no attribute '" ++ name ++ "'")).

(** [invoice.<name>] on an entity instance. *)
Definition getattr (r : row) (name : string) : M pyval :=
  match row_get r name with
  | Some v => ret v
  | None => raise (AttributeError ("'Invoice' object has no attribute '" ++ name ++ "'"))
  end.

(** [await session.exec(select(Invoice).where(Invoice.<column> == value))]:
    one read of the invoice table. *)
Definition select_where (column : string) (value : pyval) : M ScalarResult :=
  emit (EvDupQuery column value);;;
  store <- get_store;;
  ret (mkScalarResult
         (filter (fun r => match row_get r column with
                           | Some x => sql_eq x value
                           | None => false
                           end) store)).

(** [RuleInput(amount=...)] on a column value: a float is accepted.  Every
    other value is taken to fail validation; pydantic's lax mode would also
    convert a numeric string, which this model does not cover, so only the
    float case is relied on below. *)
Definition as_float (v : pyval) : M Q :=
  match v with
  | PyFloat q => ret q
  | _ => raise (ValueError "amount: Input should be a valid number")
  end.

(** The [@rule] [auto_approve]. *)
Definition auto_approve (input_amount : Q) : RuleOutput :=
  mkRuleOutput (Qltb input_amount 1000) "Amount is under $1000".

Section Steps.

Variable float_str : Q -> string.
Variable datetime_str : datetime -> string.
(** [invoice_agent] (output type [Invoice]) and the answer of the person
    doing [human_review] (input and output type [Invoice]). *)
Variable invoice_agent : PlanarFile -> exn + row.
Variable human_review : row -> row -> row.

(** step 1: [extract_invoice] *)
Definition extract_invoice (invoice_file : PlanarFile) : M row :=
  emit (EvExtract invoice_file);;;
  lift (invoice_agent invoice_file).

(** step 2: [verify_unique_invoice_step].  The operands of [==] in the
    [where] clause are evaluated left to right; the [print] fetches all
    rows with [.all()] before the membership test. *)
Definition verify_unique_invoice_step (schema : list string) (invoice : row)
  : M RuleOutput :=
  column <- class_column schema "invoice_number";;
  number <- getattr invoice "invoice_number";;
  historical_invoice_numbers <- select_where column number;;
  let '(_, historical_invoice_numbers) := scalar_all historical_invoice_numbers in
  if py_in number historical_invoice_numbers then
    ret (mkRuleOutput false
           ("Invoice number " ++ py_format float_str datetime_str number ++ " is a duplicate"))
  else
    ret (mkRuleOutput true
           ("Invoice number " ++ py_format float_str datetime_str number
            ++ " is NOT a duplicate")).

(** step 3: [maybe_approve] *)
Definition maybe_approve (invoice : row) : M row :=
  a <- getattr invoice "amount";;
  input_amount <- as_float a;;
  emit (EvRule (mkRuleInput input_amount 1000));;;
  if ro_approved (auto_approve input_amount) then ret invoice
  else
    emit (EvHumanReviewRow invoice);;;
    ret (human_review invoice invoice).

(** The [@workflow] [process_invoice_with_entity]; [None] is the implicit
    return when the uniqueness step answers [approved=False]. *)
Definition process_invoice_with_entity (schema : list string) (invoice_file : PlanarFile)
  : M (option row) :=
  invoice <- extract_invoice invoice_file;;
  unique_invoice <- verify_unique_invoice_step schema invoice;;
  if ro_approved unique_invoice then
    r <- maybe_approve invoice;;
    ret (Some r)
  else ret None.

End Steps.

End WithEntity.

(* ------------------------------------------------------------------ *)
(** ** Traces of a run *)

Definition is_review (e : event) : bool :=
  match e with EvHumanReview _ | EvHumanReviewRow _ => true | _ => false end.

Definition count_reviews (tr : list event) : nat := List.length (filter is_review tr).

Definition is_rule (e : event) : bool :=
  match e with EvRule _ => true | _ => false end.

(** The ledger postings of a trace: invoice number, success and entry id. *)
Fixpoint postings (tr : list event) : list (string * bool * string) :=
  match tr with
  | [] => []
  | EvPost je resp :: tr' =>
      (je_invoice_number je, success resp, entry_id resp) :: postings tr'
  | _ :: tr' => postings tr'
  end.

(** [w] with the events [l] appended to its trace. *)
Definition extend (w : world) (l : list event) : world :=
  mkWorld (w_trace w ++ l)%list (w_store w).

(** The result of a step whose value is wrapped in [Some]. *)
Definition map_some {A} (p : (exn + A) * world) : (exn + option A) * world :=
  match p with
  | (inl e, w) => (inl e, w)
  | (inr a, w) => (inr (Some a), w)
  end.

(* ------------------------------------------------------------------ *)
(** ** Concrete collaborators used by the examples *)

(** [f"{1000.0}"], the text of the only threshold the workflow uses. *)
Definition sample_float_str (_ : Q) : string := "1000.0".

Definition sample_invoice (number : string) (amt : Q) : InvoiceData :=
  mkInvoiceData "invoice.pdf" "Acme" amt "Office supplies" 0%Z number.

(** An agent reading two documents: an invoice of 500 and one of 1500. *)
Definition sample_agent (f : PlanarFile) : exn + InvoiceData :=
  if String.eqb f "a.pdf" then inr (sample_invoice "INV-1" 500)
  else if String.eqb f "b.pdf" then inr (sample_invoice "INV-2" 1500)
  else inl (ValueError "unreadable document").

(** Reviewers confirming, resp. rejecting, the suggested data unchanged. *)
Definition sample_review_approve (inv _ : InvoiceData) : InvoiceDataReviewed :=
  mkInvoiceDataReviewed inv true.

Definition sample_review_reject (inv _ : InvoiceData) : InvoiceDataReviewed :=
  mkInvoiceDataReviewed inv false.

Definition sample_excel (je : JournalEntry) : exn + PlanarFile :=
  inr ("journal_entry_" ++ je_invoice_number je ++ ".xlsx").

Definition empty_world : world := mkWorld [] [].

(** Entity instances: as declared (no [invoice_number]) and with an
    [invoice_number] attribute. *)
Definition sample_entity_row (amt : Q) : row :=
  [("id", PyStr "3f2c9a1e-0000-4000-8000-000000000001"); ("created_at", PyDatetime 0%Z);
   ("updated_at", PyDatetime 0%Z); ("created_by", PyStr "system");
   ("updated_by", PyStr "system"); ("vendor", PyStr "Acme"); ("amount", PyFloat amt)].

Definition sample_entity_row_numbered (number : string) (amt : Q) : row :=
  (sample_entity_row amt ++ [("invoice_number", PyStr number)])%list.

(** The invoice table already holding invoice [INV-1]. *)
Definition store_with_inv1 : world :=
  mkWorld [] [sample_entity_row_numbered "INV-1" 500].

Definition sample_datetime_str (_ : datetime) : string := "2025-11-05 00:00:00".

Definition sample_entity_review (inv _ : row) : row := inv.

(** A journal entry with a single debit line: not balanced. *)
Definition sample_unbalanced_entry : JournalEntry :=
  mkJournalEntry 0%Z "INV-1" "Acme" "Invoice from Acme - Invoice #INV-1"
    [mkJournalEntryLine "Office Supplies Expense" 500 0] None.

(** The entry built for the invoice of 500. *)
Definition sample_entry : JournalEntry := build_journal_entry (sample_invoice "INV-1" 500).

(** A run of [process_invoice] on the invoice of 500. *)
Definition sample_run_auto : (exn + option JournalEntry) * world :=
  process_invoice sample_float_str sample_agent sample_review_approve sample_excel 0%Z
    "a.pdf" empty_world.

(* ------------------------------------------------------------------ *)
(** ** Composing calls *)

(** Posting a list of entries, one after the other, through the same
    client object ([for je in jes: await client.post_journal_entry(je)]). *)
Fixpoint post_all (self : MockGeneralLedgerClient) (jes : list JournalEntry)
  (now : datetime) : list GLApiResponse * MockGeneralLedgerClient :=
  match jes with
  | [] => ([], self)
  | je :: rest =>
      let '(r, self1) := post_journal_entry self je now in
      let '(rs, self2) := post_all self1 rest now in
      (r :: rs, self2)
  end.

(** [journal_entry.workbook = excel_file] *)
Definition with_workbook (je : JournalEntry) (f : PlanarFile) : JournalEntry :=
  mkJournalEntry (entry_date je) (je_invoice_number je) (je_vendor je)
    (je_description je) (lines je) (Some f).

(** The response of a fresh client to the first (balanced) entry it posts. *)
Definition first_posting_response (je : JournalEntry) (now : datetime) : GLApiResponse :=
  mkGLApiResponse true "JE-1001"
    ("Journal entry posted successfully for vendor " ++ je_vendor je) now.

(* ------------------------------------------------------------------ *)
(** ** The workbook written by [create_journal_entry_excel] *)

(** The workbook is modelled by the xlsxwriter calls the function makes,
    in order; the temporary file, the read back and [PlanarFile.upload] are
    left out. *)

(** Values passed to [worksheet.write]. *)
Inductive cellval :=
| CStr (s : string)
| CNum (q : Q)
| CDate (d : datetime).

(** The formats created with [workbook.add_format]:
    [header_format] ({bold, bg #D3D3D3, border 1, centered}),
    [currency_format] ({$#,##0.00, border 1}), [date_format]
    ({mm/dd/yyyy, border 1}), [text_format] ({border 1, left}) and
    [balanced_format] ({border 1, bold, bg_color}). *)
Inductive cell_format :=
| FmtHeader
| FmtCurrency
| FmtDate
| FmtText
| FmtBalanced (bg_color : string).

Inductive xlsx_op :=
| AddWorksheet (name : string)
| SetColumn (sheet : string) (cols : string) (width : nat)
| WriteCell (sheet : string) (row col : nat) (v : cellval) (fmt : option cell_format).

(** Cell references in A1 notation with a single column letter:
    [(row, col)], both counted from 0 as in [write(row, col, ...)]. *)
Fixpoint digits_value (s : string) (acc : nat) : nat :=
  match s with
  | EmptyString => acc
  | String c s' => digits_value s' (acc * 10 + (nat_of_ascii c - 48))
  end.

Definition a1 (ref : string) : nat * nat :=
  match ref with
  | String c rest => (digits_value rest 0 - 1, nat_of_ascii c - 65)%nat
  | EmptyString => (0, 0)%nat
  end.

(** [worksheet.write("B7", v, fmt)] *)
Definition write_a1 (sheet ref : string) (v : cellval) (fmt : option cell_format) : xlsx_op :=
  let '(r, c) := a1 ref in WriteCell sheet r c v fmt.

Definition summary_sheet : string := "Summary".
Definition detail_sheet : string := "Journal Entry Details".
Definition netsuite_sheet : string := "NetSuite Import Format".

Definition yes_no (b : bool) : string := if b then "Yes" else "No".

Definition balanced_format (je : JournalEntry) : cell_format :=
  FmtBalanced (if is_balanced je then "#90EE90" else "#FFB6C1").

(** The "Summary" sheet.  [entry_date_naive] is the entry date: the model's
    timestamps carry no time zone. *)
Definition summary_ops (je : JournalEntry) : list xlsx_op :=
  let total_debits := py_sum (map debit (lines je)) in
  let total_credits := py_sum (map credit (lines je)) in
  [AddWorksheet summary_sheet;
   SetColumn summary_sheet "A:A" 25; SetColumn summary_sheet "B:B" 20;
   write_a1 summary_sheet "A1" (CStr "Journal Entry Summary") (Some FmtHeader);
   write_a1 summary_sheet "A2" (CStr "Invoice Number:") (Some FmtHeader);
   write_a1 summary_sheet "B2" (CStr (je_invoice_number je)) (Some FmtText);
   write_a1 summary_sheet "A3" (CStr "Vendor:") (Some FmtHeader);
   write_a1 summary_sheet "B3" (CStr (je_vendor je)) (Some FmtText);
   write_a1 summary_sheet "A4" (CStr "Entry Date:") (Some FmtHeader);
   write_a1 summary_sheet "B4" (CDate (entry_date je)) (Some FmtDate);
   write_a1 summary_sheet "A5" (CStr "Description:") (Some FmtHeader);
   write_a1 summary_sheet "B5" (CStr (je_description je)) (Some FmtText);
   write_a1 summary_sheet "A7" (CStr "Total Debits:") (Some FmtHeader);
   write_a1 summary_sheet "B7" (CNum total_debits) (Some FmtCurrency);
   write_a1 summary_sheet "A8" (CStr "Total Credits:") (Some FmtHeader);
   write_a1 summary_sheet "B8" (CNum total_credits) (Some FmtCurrency);
   write_a1 summary_sheet "A9" (CStr "Difference:") (Some FmtHeader);
   write_a1 summary_sheet "B9" (CNum (Qabs (total_debits - total_credits))) (Some FmtCurrency);
   write_a1 summary_sheet "A10" (CStr "Balanced?") (Some FmtHeader);
   write_a1 summary_sheet "B10" (CStr (yes_no (is_balanced je))) (Some (balanced_format je))].

Definition detail_headers : list string :=
  ["Entry Date"; "Invoice Number"; "Vendor"; "Description"; "Account Name";
   "Debit"; "Credit"; "Line Memo"; "Entry Total"; "Balanced?"].

(** [for col, header in enumerate(headers): detail.write(0, col, header, header_format)] *)
Fixpoint header_ops (col : nat) (hs : list string) : list xlsx_op :=
  match hs with
  | [] => []
  | h :: hs' => WriteCell detail_sheet 0 col (CStr h) (Some FmtHeader) :: header_ops (S col) hs'
  end.

(** The cells of one line of the "Journal Entry Details" sheet. *)
Definition detail_line_ops (je : JournalEntry) (row : nat) (line : JournalEntryLine)
  : list xlsx_op :=
  let total_debits := py_sum (map debit (lines je)) in
  [WriteCell detail_sheet row 0 (CDate (entry_date je)) (Some FmtDate);
   WriteCell detail_sheet row 1 (CStr (je_invoice_number je)) (Some FmtText);
   WriteCell detail_sheet row 2 (CStr (je_vendor je)) (Some FmtText);
   WriteCell detail_sheet row 3 (CStr (je_description je)) (Some FmtText);
   WriteCell detail_sheet row 4 (CStr (account_name line)) (Some FmtText);
   if Qltb 0 (debit line) then WriteCell detail_sheet row 5 (CNum (debit line)) (Some FmtCurrency)
   else WriteCell detail_sheet row 5 (CStr "") (Some FmtText);
   if Qltb 0 (credit line) then WriteCell detail_sheet row 6 (CNum (credit line)) (Some FmtCurrency)
   else WriteCell detail_sheet row 6 (CStr "") (Some FmtText);
   WriteCell detail_sheet row 7 (CStr "") (Some FmtText);
   WriteCell detail_sheet row 8 (CNum total_debits) (Some FmtCurrency);
   WriteCell detail_sheet row 9 (CStr (yes_no (is_balanced je))) (Some (balanced_format je))].

(** [row = 1; for line in journal_entry.lines: ...; row += 1] *)
Fixpoint detail_rows (je : JournalEntry) (row : nat) (ls : list JournalEntryLine)
  : list xlsx_op :=
  match ls with
  | [] => []
  | l :: ls' => detail_line_ops je row l ++ detail_rows je (S row) ls'
  end.

Definition detail_ops (je : JournalEntry) : list xlsx_op :=
  [AddWorksheet detail_sheet;
   SetColumn detail_sheet "A:A" 12; SetColumn detail_sheet "B:B" 15;
   SetColumn detail_sheet "C:C" 25; SetColumn detail_sheet "D:D" 40;
   SetColumn detail_sheet "E:E" 35; SetColumn detail_sheet "F:F" 12;
   SetColumn detail_sheet "G:G" 12; SetColumn detail_sheet "H:H" 30;
   SetColumn detail_sheet "I:I" 12; SetColumn detail_sheet "J:J" 10]
  ++ header_ops 0 detail_headers ++ detail_rows je 1 (lines je).

(** The cells of one line of the "NetSuite Import Format" sheet. *)
Definition netsuite_line_ops (je : JournalEntry) (row : nat) (line : JournalEntryLine)
  : list xlsx_op :=
  [WriteCell netsuite_sheet row 0 (CStr (account_name line)) None] ++
  (if Qltb 0 (debit line)
   then [WriteCell netsuite_sheet row 1 (CNum (debit line)) (Some FmtCurrency)] else []) ++
  (if Qltb 0 (credit line)
   then [WriteCell netsuite_sheet row 2 (CNum (credit line)) (Some FmtCurrency)] else []) ++
  [WriteCell netsuite_sheet row 3 (CStr (je_description je)) None;
   WriteCell netsuite_sheet row 7 (CStr (je_vendor je)) None].

Fixpoint netsuite_rows (je : JournalEntry) (row : nat) (ls : list JournalEntryLine)
  : list xlsx_op :=
  match ls with
  | [] => []
  | l :: ls' => netsuite_line_ops je row l ++ netsuite_rows je (S row) ls'
  end.

(** [strftime fmt d] is [d.strftime(fmt)]. *)
Definition netsuite_ops (strftime : string -> datetime -> string) (je : JournalEntry)
  : list xlsx_op :=
  [AddWorksheet netsuite_sheet; SetColumn netsuite_sheet "A:H" 20;
   write_a1 netsuite_sheet "A1" (CStr "*Journal Entry") None;
   write_a1 netsuite_sheet "A2" (CStr "Entry Date") None;
   write_a1 netsuite_sheet "B2" (CStr "Subsidiary") None;
   write_a1 netsuite_sheet "C2" (CStr "Currency") None;
   write_a1 netsuite_sheet "D2" (CStr "Memo") None;
   write_a1 netsuite_sheet "A3" (CStr (strftime "%m/%d/%Y" (entry_date je))) None;
   write_a1 netsuite_sheet "B3" (CStr "Parent Company") None;
   write_a1 netsuite_sheet "C3" (CStr "USD") None;
   write_a1 netsuite_sheet "D3" (CStr (je_description je)) None;
   write_a1 netsuite_sheet "A4" (CStr "*Line") None;
   write_a1 netsuite_sheet "A5" (CStr "Account") None;
   write_a1 netsuite_sheet "B5" (CStr "Debit") None;
   write_a1 netsuite_sheet "C5" (CStr "Credit") None;
   write_a1 netsuite_sheet "D5" (CStr "Memo") None;
   write_a1 netsuite_sheet "E5" (CStr "Department") None;
   write_a1 netsuite_sheet "F5" (CStr "Class") None;
   write_a1 netsuite_sheet "G5" (CStr "Location") None;
   write_a1 netsuite_sheet "H5" (CStr "Entity") None]
  ++ netsuite_rows je 6 (lines je).

(** All calls made on the workbook by [create_journal_entry_excel]. *)
Definition journal_entry_workbook (strftime : string -> datetime -> string)
  (je : JournalEntry) : list xlsx_op :=
  summary_ops je ++ detail_ops je ++ netsuite_ops strftime je.

(** The value a cell holds after the calls: the last write to it. *)
Fixpoint cell_value (sheet : string) (r c : nat) (ops : list xlsx_op) : option cellval :=
  match ops with
  | [] => None
  | op :: rest =>
      match cell_value sheet r c rest with
      | Some v => Some v
      | None =>
          match op with
          | WriteCell s r' c' v _ =>
              if (String.eqb s sheet && Nat.eqb r r' && Nat.eqb c c')%bool
              then Some v else None
          | _ => None
          end
      end
  end.

(* ================================================================== *)
(** * Properties *)

(* ------------------------------------------------------------------ *)
(** ** Helper lemmas *)

Lemma Qltb_iff (a b : Q) : Qltb a b = true <-> a < b.
Proof.
  unfold Qltb. rewrite negb_true_iff. split.
  - intros H. apply Qnot_le_lt. intros Hle.
    apply Qle_bool_iff in Hle. congruence.
  - intros H. destruct (Qle_bool b a) eqn:E; [|reflexivity].
    apply Qle_bool_iff in E. exfalso. apply (Qlt_not_le a b); assumption.
Qed.

Lemma Qltb_false_iff (a b : Q) : Qltb a b = false <-> b <= a.
Proof.
  unfold Qltb. rewrite negb_false_iff. apply Qle_bool_iff.
Qed.

(* ------------------------------------------------------------------ *)
(** ** Journal entry builder *)

Lemma build_journal_entry_balanced (invoice : InvoiceData) :
  is_balanced (build_journal_entry invoice) = true.
Proof.
  unfold is_balanced. apply Qltb_iff. cbn [lines build_journal_entry map debit credit].
  unfold py_sum. cbn [fold_left].
  setoid_replace (0 + amount invoice + 0 - (0 + 0 + amount invoice)) with 0 by ring.
  reflexivity.
Qed.

(** C1: the entry built by [write_invoice_to_general_ledger] for an invoice
    of amount [A] has exactly two lines, a debit of [A] (credit 0) followed
    by a credit of [A] (debit 0), and [is_balanced] holds for it, i.e.
    [abs(sum(debit) - sum(credit)) < 0.01]. *)
Theorem build_journal_entry_two_lines_balanced (invoice : InvoiceData) :
  let je := build_journal_entry invoice in
  (exists l1 l2,
      lines je = [l1; l2] /\
      debit l1 = amount invoice /\ credit l1 = 0 /\
      debit l2 = 0 /\ credit l2 = amount invoice) /\
  is_balanced je = true.
Proof.
  cbv zeta. split.
  - do 2 eexists. repeat split.
  - apply build_journal_entry_balanced.
Qed.

(* ------------------------------------------------------------------ *)
(** ** Approval rule *)

(** C2: [auto_approver] approves exactly when [amount < threshold] (so an
    amount equal to the threshold is not approved) and its reason is
    ["Amount is under $"] followed by the text of the threshold. *)
Theorem auto_approver_spec (float_str : Q -> string) (a t : Q) :
  let out := auto_approver float_str (mkRuleInput a t) in
  (ro_approved out = true <-> a < t) /\
  (ro_approved out = false <-> t <= a) /\
  (a == t -> ro_approved out = false) /\
  ro_reason out = "Amount is under $" ++ float_str t.
Proof.
  cbv zeta. cbn [auto_approver ro_approved ro_reason ri_amount ri_threshold].
  split; [apply Qltb_iff|]. split; [apply Qltb_false_iff|]. split; [|reflexivity].
  intros Heq. apply Qltb_false_iff. rewrite Heq. apply Qle_refl.
Qed.

(* ------------------------------------------------------------------ *)
(** ** Ledger client *)

(** C8: [post_journal_entry] on an entry that fails [is_balanced] returns
    (it cannot raise) a response with [success = false], the message
    ["Journal entry is not balanced"] and an empty [entry_id], and leaves the
    client, in particular its entry counter, unchanged. *)
Theorem post_journal_entry_unbalanced (self : MockGeneralLedgerClient)
  (journal_entry : JournalEntry) (now : datetime) :
  is_balanced journal_entry = false ->
  post_journal_entry self journal_entry now =
    (mkGLApiResponse false "" "Journal entry is not balanced" now, self).
Proof.
  intros H. unfold post_journal_entry. rewrite H. reflexivity.
Qed.

(* ------------------------------------------------------------------ *)
(** ** maybe_approve *)

(** C10: when [maybe_approve] returns normally, the reviewed invoice it
    returns has [approved = true], on the auto-approval path as on the
    human-review path. *)
Theorem maybe_approve_returns_approved (float_str : Q -> string)
  (human_review : InvoiceData -> InvoiceData -> InvoiceDataReviewed)
  (invoice : InvoiceData) (w w' : world) (r : InvoiceDataReviewed) :
  maybe_approve float_str human_review invoice w = (inr r, w') ->
  approved r = true.
Proof.
  unfold maybe_approve, bind, emit, ret, raise. cbn.
  destruct (Qltb (amount invoice) 1000).
  - intros H. injection H as <- _. reflexivity.
  - destruct (approved (human_review invoice invoice)) eqn:E.
    + intros H. injection H as <- _. exact E.
    + discriminate.
Qed.

Lemma postings_app (t1 t2 : list event) : postings (t1 ++ t2) = (postings t1 ++ postings t2)%list.
Proof.
  induction t1 as [|e t1 IH]; [reflexivity|].
  destruct e; cbn; rewrite ?IH; reflexivity.
Qed.

Lemma count_reviews_app (t1 t2 : list event) :
  count_reviews (t1 ++ t2) = (count_reviews t1 + count_reviews t2)%nat.
Proof.
  unfold count_reviews. rewrite filter_app, length_app. reflexivity.
Qed.

Lemma string_of_uint_inj (d1 d2 : uint) : string_of_uint d1 = string_of_uint d2 -> d1 = d2.
Proof.
  revert d2. induction d1; intros d2; destruct d2; cbn; intros H;
    try discriminate; try reflexivity;
    injection H as H; f_equal; apply IHd1; exact H.
Qed.

Lemma py_str_int_inj (n m : N) : py_str_int n = py_str_int m -> n = m.
Proof.
  unfold py_str_int. intros H. apply DecimalN.Unsigned.to_uint_inj.
  apply string_of_uint_inj. exact H.
Qed.

(** Running [emit] and binding. *)
Lemma bind_emit {A} (e : event) (k : unit -> M A) (w : world) :
  bind (emit e) k w = k tt (extend w [e]).
Proof. reflexivity. Qed.

Lemma extend_extend (w : world) (l1 l2 : list event) :
  extend (extend w l1) l2 = extend w (l1 ++ l2)%list.
Proof. unfold extend. cbn. rewrite app_assoc. reflexivity. Qed.

(** [maybe_approve] of [process_invoice.py], run. *)
Lemma maybe_approve_run float_str human_review (invoice : InvoiceData) (w : world) :
  maybe_approve float_str human_review invoice w =
    if Qltb (amount invoice) 1000 then
      (inr (mkInvoiceDataReviewed invoice true),
       extend w [EvRule (mkRuleInput (amount invoice) 1000)])
    else if approved (human_review invoice invoice) then
      (inr (human_review invoice invoice),
       extend w [EvRule (mkRuleInput (amount invoice) 1000); EvHumanReview invoice])
    else
      (inl (ValueError "Invoice was not approved by human reviewer"),
       extend w [EvRule (mkRuleInput (amount invoice) 1000); EvHumanReview invoice]).
Proof.
  unfold maybe_approve. rewrite bind_emit. cbn [auto_approver ro_approved ri_amount ri_threshold].
  destruct (Qltb (amount invoice) 1000); [reflexivity|].
  rewrite bind_emit, extend_extend. cbn.
  destruct (approved (human_review invoice invoice)); reflexivity.
Qed.

(** [process_invoice], run: extraction, the rule, the review when the rule
    declines, then the posting step. *)
Lemma process_invoice_run float_str invoice_agent human_review create_journal_entry_excel
  now (invoice_file : PlanarFile) (w : world) :
  process_invoice float_str invoice_agent human_review create_journal_entry_excel now
    invoice_file w =
  match invoice_agent invoice_file with
  | inl e => (inl e, extend w [EvExtract invoice_file])
  | inr invoice =>
      let w1 := extend w [EvExtract invoice_file;
                          EvRule (mkRuleInput (amount invoice) 1000)] in
      if Qltb (amount invoice) 1000 then
        map_some (write_invoice_to_general_ledger create_journal_entry_excel now invoice w1)
      else if approved (human_review invoice invoice) then
        map_some (write_invoice_to_general_ledger create_journal_entry_excel now
                    (reviewed_data (human_review invoice invoice))
                    (extend w1 [EvHumanReview invoice]))
      else
        (inl (ValueError "Invoice was not approved by human reviewer"),
         extend w1 [EvHumanReview invoice])
  end.
Proof.
  unfold process_invoice, extract_invoice. unfold bind at 1. rewrite bind_emit.
  unfold lift. destruct (invoice_agent invoice_file) as [e|invoice]; [reflexivity|].
  unfold bind at 1. rewrite maybe_approve_run.
  destruct (Qltb (amount invoice) 1000).
  - cbn [model_truthy]. unfold bind, ret. rewrite extend_extend. cbn.
    destruct (write_invoice_to_general_ledger _ _ _ _) as [[e|je] w']; reflexivity.
  - rewrite extend_extend, extend_extend.
    destruct (approved (human_review invoice invoice)); [|reflexivity].
    cbn [model_truthy]. unfold bind, ret.
    destruct (write_invoice_to_general_ledger _ _ _ _) as [[e|je] w']; reflexivity.
Qed.

(** What [write_invoice_to_general_ledger] adds to the trace: first the
    export of the built entry, no review, and every posting it makes is
    answered with [JE-1001] (its client is created with counter [1000] just
    before the call). *)
Lemma write_invoice_to_general_ledger_trace create_journal_entry_excel now
  (invoice : InvoiceData) (w w' : world) (r : exn + JournalEntry) :
  write_invoice_to_general_ledger create_journal_entry_excel now invoice w = (r, w') ->
  exists rest,
    w_trace w' = (w_trace w ++ EvExport (build_journal_entry invoice) :: rest)%list /\
    count_reviews rest = 0%nat /\
    Forall (fun p => snd p = "JE-1001") (postings rest).
Proof.
  unfold write_invoice_to_general_ledger, bind, emit, lift, ret, raise.
  pose proof (build_journal_entry_balanced invoice) as Hbal.
  rewrite Hbal. cbn -[post_journal_entry].
  destruct (create_journal_entry_excel _) as [e|f].
  - intros H. injection H as _ <-. exists []. cbn. repeat split. constructor.
  - set (je := mkJournalEntry _ _ _ _ _ _).
    assert (Hje : is_balanced je = true) by exact Hbal.
    unfold post_journal_entry. rewrite Hje. cbn -[py_str_int].
    intros H. injection H as _ <-.
    eexists. cbn -[py_str_int]. rewrite <- app_assoc. split; [reflexivity|].
    split; [reflexivity|]. repeat constructor.
Qed.

Lemma map_some_world {A} (p : (exn + A) * world) r w' :
  map_some p = (r, w') -> snd p = w'.
Proof. destruct p as [[e|a] w]; cbn; intros H; injection H; auto. Qed.

(** The events a [process_invoice] run adds to the trace. *)
Lemma process_invoice_trace float_str invoice_agent human_review create_journal_entry_excel
  now (invoice_file : PlanarFile) (w w' : world) (r : exn + option JournalEntry) :
  process_invoice float_str invoice_agent human_review create_journal_entry_excel now
    invoice_file w = (r, w') ->
  exists suffix,
    w_trace w' = (w_trace w ++ suffix)%list /\
    Forall (fun p => snd p = "JE-1001") (postings suffix) /\
    match invoice_agent invoice_file with
    | inl _ => suffix = [EvExtract invoice_file]
    | inr invoice =>
        count_reviews suffix = (if Qltb (amount invoice) 1000 then 0 else 1)%nat /\
        (Qltb (amount invoice) 1000 = true ->
         In (EvExport (build_journal_entry invoice)) suffix)
    end.
Proof.
  rewrite process_invoice_run.
  destruct (invoice_agent invoice_file) as [e|invoice].
  - intros H. injection H as _ <-. eexists. repeat split. constructor.
  - cbv zeta. destruct (Qltb (amount invoice) 1000).
    + destruct (write_invoice_to_general_ledger _ _ _ _) as [r0 w0] eqn:Ew.
      intros H. apply map_some_world in H. cbn in H. subst w0.
      apply write_invoice_to_general_ledger_trace in Ew as (rest & Ht & Hc & Hp).
      rewrite Ht. cbn. rewrite <- app_assoc. eexists. split; [reflexivity|].
      cbn. split; [exact Hp|]. split; [exact Hc|].
      intros _. right. right. left. reflexivity.
    + destruct (approved (human_review invoice invoice)).
      * destruct (write_invoice_to_general_ledger _ _ _ _) as [r0 w0] eqn:Ew.
        intros H. apply map_some_world in H. cbn in H. subst w0.
        apply write_invoice_to_general_ledger_trace in Ew as (rest & Ht & Hc & Hp).
        rewrite Ht. cbn. rewrite <- !app_assoc. eexists. split; [reflexivity|].
        cbn. split; [exact Hp|]. split; [|discriminate].
        unfold count_reviews in *. cbn. rewrite Hc. reflexivity.
      * intros H. injection H as _ <-. cbn. rewrite <- app_assoc. eexists.
        split; [reflexivity|]. cbn. split; [constructor|]. split; [reflexivity|discriminate].
Qed.

(** C3 (counterexample): two successive runs of [process_invoice] on two
    different invoices (one auto-approved, one approved by the reviewer)
    make two successful postings, and both are answered with the entry id
    [JE-1001]: entry ids of the pipeline's postings are not unique. *)
Lemma ledger_entry_ids_repeat_across_runs :
  let w1 := snd (process_invoice sample_float_str sample_agent sample_review_approve
                   sample_excel 0%Z "a.pdf" empty_world) in
  let w2 := snd (process_invoice sample_float_str sample_agent sample_review_approve
                   sample_excel 0%Z "b.pdf" w1) in
  postings (w_trace w2) = [("INV-1", true, "JE-1001"); ("INV-2", true, "JE-1001")].
Proof. vm_compute. reflexivity. Qed.

(** Successful responses of [post_all] carry ids [JE-k] with [k] in the
    range the counter went through, and are pairwise distinct. *)
Lemma post_all_ids (self : MockGeneralLedgerClient) (jes : list JournalEntry)
  (now : datetime) :
  let '(rs, self') := post_all self jes now in
  Forall (fun r => success r = true ->
            exists k, entry_id r = "JE-" ++ py_str_int k /\
                      (entry_counter self < k <= entry_counter self')%N) rs /\
  NoDup (map entry_id (filter success rs)) /\
  entry_counter self' = (entry_counter self + N.of_nat (List.length (filter is_balanced jes)))%N /\
  map success rs = map is_balanced jes.
Proof.
  revert self. induction jes as [|je rest IH]; intros self.
  - cbn. repeat split; [constructor | constructor | lia].
  - cbn [post_all]. destruct (is_balanced je) eqn:Hb.
    + unfold post_journal_entry at 1. rewrite Hb. cbn [negb].
      specialize (IH (mkMockGeneralLedgerClient (base_url self) (api_key self)
                        (entry_counter self + 1))).
      destruct (post_all _ rest now) as [rs self2].
      cbn [entry_counter] in IH. destruct IH as (Hf & Hnd & Hc & Hs).
      cbn [filter success map]. rewrite Hb. cbn [filter].
      split; [|split; [|split]].
      * constructor.
        -- intros _. exists (entry_counter self + 1)%N. split; [reflexivity|].
           cbn [entry_id]. rewrite Hc. lia.
        -- eapply Forall_impl; [|exact Hf]. cbn beta.
           intros r Hr Hsr. destruct (Hr Hsr) as (k & Hk & Hr1). exists k. split; [exact Hk|]. lia.
      * constructor; [|exact Hnd]. cbn [entry_id].
        intros Hin. apply in_map_iff in Hin as (r & Hid & Hin).
        apply filter_In in Hin as [Hin Hsr].
        rewrite Forall_forall in Hf. destruct (Hf r Hin Hsr) as (k & Hk & Hr1).
        rewrite Hk in Hid. injection Hid as Hid. apply py_str_int_inj in Hid. lia.
      * rewrite Hc. cbn [List.length]. lia.
      * cbn [map success]. rewrite Hs. reflexivity.
    + unfold post_journal_entry at 1. rewrite Hb. cbn [negb].
      specialize (IH self). destruct (post_all self rest now) as [rs self2].
      destruct IH as (Hf & Hnd & Hc & Hs).
      cbn [filter success map]. rewrite Hb.
      split; [|split; [exact Hnd|split; [exact Hc|]]].
      * constructor; [discriminate|exact Hf].
      * rewrite Hs. reflexivity.
Qed.

(** Posting balanced entries only: every response is a success and the
    [k]-th one (from 0) carries the id [JE-<counter + 1 + k>]. *)
Lemma post_all_balanced (self : MockGeneralLedgerClient) (jes : list JournalEntry)
  (now : datetime) :
  Forall (fun je => is_balanced je = true) jes ->
  Forall (fun r => success r = true) (fst (post_all self jes now)) /\
  map entry_id (fst (post_all self jes now)) =
    map (fun i => "JE-" ++ py_str_int (entry_counter self + 1 + N.of_nat i))
      (seq 0 (List.length jes)).
Proof.
  revert self. induction jes as [|je rest IH]; intros self Hb; [split; constructor|].
  inversion Hb as [|? ? Hje Hrest]; subst.
  cbn [post_all]. unfold post_journal_entry. rewrite Hje. cbn [negb].
  specialize (IH (mkMockGeneralLedgerClient (base_url self) (api_key self)
                    (entry_counter self + 1)) Hrest).
  destruct (post_all _ rest now) as [rs self2]. cbn [fst entry_counter] in IH |- *.
  destruct IH as [Hs Hid]. split; [constructor; [reflexivity | exact Hs]|].
  cbn [List.length seq map entry_id]. rewrite Hid, <- seq_shift, map_map.
  f_equal; [f_equal; f_equal; lia|].
  apply map_ext. intros i. f_equal. f_equal. lia.
Qed.

(** C3 (amended): one client object gives its successful postings pairwise
    distinct entry ids, and a run of balanced entries gets the ids
    [JE-<counter + 1>], [JE-<counter + 2>], ... in order ([JE-1001],
    [JE-1002], ... for a new client); but [write_invoice_to_general_ledger]
    creates a fresh client for every posting, so every posting made by a
    [process_invoice] run is answered with the entry id [JE-1001]. *)
Theorem ledger_entry_ids_per_client (c : MockGeneralLedgerClient) (jes : list JournalEntry)
  (now : datetime) :
  (NoDup (map entry_id (filter success (fst (post_all c jes now)))) /\
   (Forall (fun je => is_balanced je = true) jes ->
    Forall (fun r => success r = true) (fst (post_all c jes now)) /\
    map entry_id (fst (post_all c jes now)) =
      map (fun i => "JE-" ++ py_str_int (entry_counter c + 1 + N.of_nat i))
        (seq 0 (List.length jes)))) /\
  (forall float_str invoice_agent human_review create_journal_entry_excel now
     invoice_file w w' r,
     process_invoice float_str invoice_agent human_review create_journal_entry_excel now
       invoice_file w = (r, w') ->
     exists suffix,
       w_trace w' = (w_trace w ++ suffix)%list /\
       Forall (fun p => snd p = "JE-1001") (postings suffix)).
Proof.
  split; [split|].
  - pose proof (post_all_ids c jes now) as H.
    destruct (post_all c jes now) as [rs c']. apply H.
  - apply post_all_balanced.
  - intros * H. apply process_invoice_trace in H as (suffix & Ht & Hp & _).
    exists suffix. split; assumption.
Qed.

(* ------------------------------------------------------------------ *)
(** ** Human review *)

(** C5: when the rule declines an extracted invoice and the reviewer answers
    with [approved = false], [process_invoice] ends with the exception
    [ValueError("Invoice was not approved by human reviewer")] raised by
    [maybe_approve] (the review-rejected failure) right after the review:
    no export and no ledger posting is made. *)
Theorem process_invoice_review_rejected float_str invoice_agent human_review
  create_journal_entry_excel now (invoice_file : PlanarFile) (invoice : InvoiceData)
  (w : world) :
  invoice_agent invoice_file = inr invoice ->
  1000 <= amount invoice ->
  approved (human_review invoice invoice) = false ->
  process_invoice float_str invoice_agent human_review create_journal_entry_excel now
    invoice_file w =
  (inl (ValueError "Invoice was not approved by human reviewer"),
   extend w [EvExtract invoice_file; EvRule (mkRuleInput (amount invoice) 1000);
             EvHumanReview invoice]).
Proof.
  intros Ha Hle Hr. rewrite process_invoice_run, Ha. cbv zeta.
  apply Qltb_false_iff in Hle. rewrite Hle, Hr. rewrite extend_extend. reflexivity.
Qed.

(** C7: in a run of [process_invoice] on an extracted invoice, the human
    review is requested exactly once when [auto_approver] declines the
    amount and never when it approves it; an auto-approved invoice goes
    straight to [write_invoice_to_general_ledger], which exports the built
    entry. *)
Theorem process_invoice_review_iff_rule_declines float_str invoice_agent human_review
  create_journal_entry_excel now (invoice_file : PlanarFile) (invoice : InvoiceData)
  (w w' : world) (r : exn + option JournalEntry) :
  invoice_agent invoice_file = inr invoice ->
  process_invoice float_str invoice_agent human_review create_journal_entry_excel now
    invoice_file w = (r, w') ->
  let decision := auto_approver float_str (mkRuleInput (amount invoice) 1000) in
  exists suffix,
    w_trace w' = (w_trace w ++ suffix)%list /\
    count_reviews suffix = (if ro_approved decision then 0 else 1)%nat /\
    (ro_approved decision = true -> In (EvExport (build_journal_entry invoice)) suffix).
Proof.
  intros Ha H. apply process_invoice_trace in H as (suffix & Ht & _ & Hm).
  rewrite Ha in Hm. destruct Hm as [Hc He].
  exists suffix. cbn [auto_approver ro_approved ri_amount ri_threshold].
  split; [exact Ht|]. split; assumption.
Qed.

(* ------------------------------------------------------------------ *)
(** ** Duplicate check of [process_invoice_with_entity.py] *)


(** [WithEntity.verify_unique_invoice_step], run.  After [.all()] the result has no
    rows left, so the membership test is always false. *)
Lemma verify_unique_invoice_step_run float_str datetime_str (schema : list string)
  (invoice : row) (w : world) :
  WithEntity.verify_unique_invoice_step float_str datetime_str schema invoice w =
  if existsb (String.eqb "invoice_number") schema then
    match row_get invoice "invoice_number" with
    | None => (inl (AttributeError "'Invoice' object has no attribute 'invoice_number'"), w)
    | Some v =>
        (inr (mkRuleOutput true
                ("Invoice number " ++ py_format float_str datetime_str v
                 ++ " is NOT a duplicate")),
         extend w [EvDupQuery "invoice_number" v])
    end
  else (inl (AttributeError "type object 'Invoice' has no attribute 'invoice_number'"), w).
Proof.
  unfold WithEntity.verify_unique_invoice_step, WithEntity.class_column, WithEntity.getattr,
    WithEntity.select_where.
  destruct (existsb (String.eqb "invoice_number") schema); [|reflexivity].
  unfold bind at 1, ret at 1. cbn beta iota.
  destruct (row_get invoice "invoice_number") as [v|]; reflexivity.
Qed.

(** C4 (failing input): the submitted invoice [INV-1] is checked against an
    invoice table that already holds [INV-1].  With the [Invoice] entity as
    declared in entities.py (no [invoice_number] column) the step raises
    [AttributeError]; with an [invoice_number] column it reads the table
    once and answers "NOT a duplicate" ([approved = true]). *)
Lemma verify_unique_invoice_step_misses_duplicate :
  WithEntity.verify_unique_invoice_step sample_float_str sample_datetime_str invoice_columns
    (sample_entity_row 500) store_with_inv1 =
    (inl (AttributeError "type object 'Invoice' has no attribute 'invoice_number'"),
     store_with_inv1) /\
  WithEntity.verify_unique_invoice_step sample_float_str sample_datetime_str WithEntity.invoice_columns_with_number
    (sample_entity_row_numbered "INV-1" 500) store_with_inv1 =
    (inr (mkRuleOutput true "Invoice number INV-1 is NOT a duplicate"),
     extend store_with_inv1 [EvDupQuery "invoice_number" (PyStr "INV-1")]).
Proof. split; vm_compute; reflexivity. Qed.

(** C9: the duplicate check only reads the table, and two calls with the
    same invoice and no insert in between give the same outcome (the same
    [RuleOutput], or the same exception). *)
Theorem verify_unique_invoice_step_idempotent float_str datetime_str (schema : list string)
  (invoice : row) (w : world) :
  let '(r1, w1) := WithEntity.verify_unique_invoice_step float_str datetime_str schema invoice w in
  let '(r2, w2) := WithEntity.verify_unique_invoice_step float_str datetime_str schema invoice w1 in
  r1 = r2 /\ w_store w1 = w_store w /\ w_store w2 = w_store w.
Proof.
  rewrite verify_unique_invoice_step_run.
  destruct (existsb (String.eqb "invoice_number") schema) eqn:Es;
    [destruct (row_get invoice "invoice_number") as [v|] eqn:Ev|];
    rewrite verify_unique_invoice_step_run, Es; rewrite ?Ev; cbn; auto.
Qed.


(* ------------------------------------------------------------------ *)
(** ** Instances of the theorems at concrete inputs *)

Lemma post_journal_entry_unbalanced_witness :
  is_balanced sample_unbalanced_entry = false /\
  post_journal_entry MockGeneralLedgerClient_default sample_unbalanced_entry 0%Z =
    (mkGLApiResponse false "" "Journal entry is not balanced" 0%Z,
     MockGeneralLedgerClient_default).
Proof.
  split; [reflexivity|].
  apply post_journal_entry_unbalanced. reflexivity.
Defined.

Lemma maybe_approve_returns_approved_witness :
  maybe_approve sample_float_str sample_review_approve (sample_invoice "INV-2" 1500)
    empty_world =
    (inr (mkInvoiceDataReviewed (sample_invoice "INV-2" 1500) true),
     extend empty_world [EvRule (mkRuleInput 1500 1000);
                         EvHumanReview (sample_invoice "INV-2" 1500)]) /\
  approved (mkInvoiceDataReviewed (sample_invoice "INV-2" 1500) true) = true.
Proof.
  split; [reflexivity|].
  apply (maybe_approve_returns_approved sample_float_str sample_review_approve
           (sample_invoice "INV-2" 1500) empty_world
           (extend empty_world [EvRule (mkRuleInput 1500 1000);
                                EvHumanReview (sample_invoice "INV-2" 1500)])).
  reflexivity.
Defined.

Lemma ledger_entry_ids_per_client_witness :
  Forall (fun je => is_balanced je = true) [sample_entry; sample_entry; sample_entry] /\
  map entry_id (fst (post_all MockGeneralLedgerClient_default
                       [sample_entry; sample_entry; sample_entry] 0%Z)) =
    ["JE-1001"; "JE-1002"; "JE-1003"].
Proof.
  assert (Hb : Forall (fun je => is_balanced je = true) [sample_entry; sample_entry; sample_entry])
    by (repeat constructor).
  split; [exact Hb|].
  rewrite (proj2 (proj2 (proj1 (ledger_entry_ids_per_client MockGeneralLedgerClient_default
                                   [sample_entry; sample_entry; sample_entry] 0%Z)) Hb)).
  vm_compute. reflexivity.
Defined.

Lemma process_invoice_review_rejected_witness :
  sample_agent "b.pdf" = inr (sample_invoice "INV-2" 1500) /\
  1000 <= amount (sample_invoice "INV-2" 1500) /\
  approved (sample_review_reject (sample_invoice "INV-2" 1500) (sample_invoice "INV-2" 1500))
    = false /\
  process_invoice sample_float_str sample_agent sample_review_reject sample_excel 0%Z
    "b.pdf" empty_world =
  (inl (ValueError "Invoice was not approved by human reviewer"),
   extend empty_world [EvExtract "b.pdf"; EvRule (mkRuleInput 1500 1000);
                       EvHumanReview (sample_invoice "INV-2" 1500)]).
Proof.
  split; [reflexivity|]. split; [apply Qle_bool_iff; reflexivity|].
  split; [reflexivity|].
  apply (process_invoice_review_rejected sample_float_str sample_agent sample_review_reject
           sample_excel 0%Z "b.pdf" (sample_invoice "INV-2" 1500) empty_world).
  - reflexivity.
  - apply Qle_bool_iff. reflexivity.
  - reflexivity.
Defined.

Lemma process_invoice_review_iff_rule_declines_witness :
  sample_agent "a.pdf" = inr (sample_invoice "INV-1" 500) /\
  sample_run_auto = (fst sample_run_auto, snd sample_run_auto) /\
  (let decision :=
     auto_approver sample_float_str (mkRuleInput (amount (sample_invoice "INV-1" 500)) 1000) in
   exists suffix,
     w_trace (snd sample_run_auto) = (w_trace empty_world ++ suffix)%list /\
     count_reviews suffix = (if ro_approved decision then 0 else 1)%nat /\
     (ro_approved decision = true ->
      In (EvExport (build_journal_entry (sample_invoice "INV-1" 500))) suffix)).
Proof.
  split; [reflexivity|]. split; [reflexivity|].
  apply (process_invoice_review_iff_rule_declines sample_float_str sample_agent
           sample_review_approve sample_excel 0%Z "a.pdf" (sample_invoice "INV-1" 500)
           empty_world (snd sample_run_auto) (fst sample_run_auto)); reflexivity.
Defined.

(* ------------------------------------------------------------------ *)
(** ** Further properties of the ledger client *)


(** X2: posting a sequence of entries through one client: exactly the
    balanced entries succeed, the counter grows by their number, and the
    entry ids of the successful responses are pairwise distinct. *)
Theorem post_all_distinct_ids (self : MockGeneralLedgerClient) (jes : list JournalEntry)
  (now : datetime) :
  let '(rs, self') := post_all self jes now in
  map success rs = map is_balanced jes /\
  entry_counter self' = (entry_counter self + N.of_nat (List.length (filter is_balanced jes)))%N /\
  NoDup (map entry_id (filter success rs)).
Proof.
  pose proof (post_all_ids self jes now) as H.
  destruct (post_all self jes now) as [rs self'].
  destruct H as (_ & Hnd & Hc & Hs). auto.
Qed.

(** X3: an entry with no lines counts as balanced (both totals are 0), so
    the client posts it successfully. *)
Theorem post_journal_entry_no_lines (self : MockGeneralLedgerClient) (d : datetime)
  (number vendor_ description_ : string) (wb : option PlanarFile) (now : datetime) :
  let je := mkJournalEntry d number vendor_ description_ [] wb in
  is_balanced je = true /\
  success (fst (post_journal_entry self je now)) = true.
Proof. cbv zeta. split; reflexivity. Qed.

(* ------------------------------------------------------------------ *)
(** ** Further properties of the workflows *)

(** [write_invoice_to_general_ledger], run: the built entry is always
    balanced, so the step exports it and, if the export succeeds, posts it
    once to a fresh client, which accepts it as [JE-1001]. *)
Lemma write_invoice_to_general_ledger_run create_journal_entry_excel now
  (invoice : InvoiceData) (w : world) :
  write_invoice_to_general_ledger create_journal_entry_excel now invoice w =
  match create_journal_entry_excel (build_journal_entry invoice) with
  | inl e => (inl e, extend w [EvExport (build_journal_entry invoice)])
  | inr f =>
      (inr (with_workbook (build_journal_entry invoice) f),
       extend w [EvExport (build_journal_entry invoice);
                 EvPost (with_workbook (build_journal_entry invoice) f)
                   (first_posting_response (build_journal_entry invoice) now)])
  end.
Proof.
  unfold write_invoice_to_general_ledger.
  pose proof (build_journal_entry_balanced invoice) as Hbal.
  rewrite Hbal. cbn [negb]. rewrite bind_emit. unfold bind at 1, lift.
  destruct (create_journal_entry_excel (build_journal_entry invoice)) as [e|f];
    [reflexivity|].
  unfold post_journal_entry.
  assert (Hje : is_balanced (with_workbook (build_journal_entry invoice) f) = true)
    by exact Hbal.
  unfold with_workbook in Hje. rewrite Hje. cbn [negb].
  rewrite bind_emit, extend_extend. reflexivity.
Qed.



(** X6: a successful run of [process_invoice] returns the entry built from
    the invoice that was approved (the extracted invoice when the rule
    approves it, otherwise the reviewer's data, edits included) with the
    exported workbook attached, and makes exactly one posting, accepted as
    [JE-1001]. *)
Theorem process_invoice_success float_str invoice_agent human_review
  create_journal_entry_excel now (invoice_file : PlanarFile) (invoice : InvoiceData)
  (w w' : world) (je : JournalEntry) :
  invoice_agent invoice_file = inr invoice ->
  process_invoice float_str invoice_agent human_review create_journal_entry_excel now
    invoice_file w = (inr (Some je), w') ->
  let posted := if Qltb (amount invoice) 1000 then invoice
                else reviewed_data (human_review invoice invoice) in
  exists f,
    create_journal_entry_excel (build_journal_entry posted) = inr f /\
    je = with_workbook (build_journal_entry posted) f /\
    postings (w_trace w') =
      (postings (w_trace w) ++ [(invoice_number posted, true, "JE-1001")])%list.
Proof.
  intros Ha. rewrite process_invoice_run, Ha. cbv zeta.
  destruct (Qltb (amount invoice) 1000);
    [|destruct (approved (human_review invoice invoice)); [|discriminate]];
    rewrite write_invoice_to_general_ledger_run;
    match goal with |- context [create_journal_entry_excel ?x] =>
      destruct (create_journal_entry_excel x) as [e|f] end; try discriminate;
    intros H; injection H as <- <-; exists f; (split; [reflexivity|]);
    (split; [reflexivity|]); cbn; rewrite !postings_app; cbn;
    rewrite ?app_nil_r; cbn [app]; rewrite <- ?app_assoc; reflexivity.
Qed.

(** X7: when [invoice_agent] fails, [process_invoice] stops with the same
    error right after the extraction: the rule, the review and the posting
    are never reached. *)
Theorem process_invoice_extraction_failure float_str invoice_agent human_review
  create_journal_entry_excel now (invoice_file : PlanarFile) (e : exn) (w : world) :
  invoice_agent invoice_file = inl e ->
  process_invoice float_str invoice_agent human_review create_journal_entry_excel now
    invoice_file w = (inl e, extend w [EvExtract invoice_file]).
Proof.
  intros Ha. rewrite process_invoice_run, Ha. reflexivity.
Qed.

(** X8: [maybe_approve] of the entity workflow, on an invoice whose
    [amount] is a float, never raises: below 1000 it returns the invoice
    unchanged without review; otherwise it returns whatever the reviewer
    answers, without checking any approval. *)
Theorem entity_maybe_approve_float (human_review : row -> row -> row) (invoice : row)
  (q : Q) (w : world) :
  row_get invoice "amount" = Some (PyFloat q) ->
  WithEntity.maybe_approve human_review invoice w =
  if Qltb q 1000 then (inr invoice, extend w [EvRule (mkRuleInput q 1000)])
  else (inr (human_review invoice invoice),
        extend w [EvRule (mkRuleInput q 1000); EvHumanReviewRow invoice]).
Proof.
  intros Hq. unfold WithEntity.maybe_approve, WithEntity.getattr.
  rewrite Hq. unfold bind at 1, ret at 1. cbn [WithEntity.as_float].
  unfold bind at 1, ret at 1. rewrite bind_emit.
  cbn [WithEntity.auto_approve ro_approved].
  destruct (Qltb q 1000); [reflexivity|].
  rewrite bind_emit, extend_extend. reflexivity.
Qed.


(* ------------------------------------------------------------------ *)
(** ** The exported workbook *)

Lemma cell_value_app (s : string) (r c : nat) (l1 l2 : list xlsx_op) :
  cell_value s r c (l1 ++ l2) =
  match cell_value s r c l2 with
  | Some v => Some v
  | None => cell_value s r c l1
  end.
Proof.
  induction l1 as [|op l1 IH]; cbn.
  - destruct (cell_value s r c l2); reflexivity.
  - rewrite IH. destruct (cell_value s r c l2); reflexivity.
Qed.

(** A cell no call writes holds nothing. *)
Lemma cell_value_none (s : string) (r c : nat) (ops : list xlsx_op) :
  Forall (fun op => match op with
                    | WriteCell s' r' c' _ _ => s' <> s \/ r' <> r \/ c' <> c
                    | _ => True
                    end) ops ->
  cell_value s r c ops = None.
Proof.
  induction 1 as [|op ops Hop _ IH]; [reflexivity|].
  cbn. rewrite IH. destruct op as [| |s' r' c' v f]; try reflexivity.
  destruct Hop as [H|[H|H]].
  - apply String.eqb_neq in H. rewrite H. reflexivity.
  - assert (E : (r =? r')%nat = false) by (apply Nat.eqb_neq; congruence).
    rewrite E, andb_false_r. reflexivity.
  - assert (E : (c =? c')%nat = false) by (apply Nat.eqb_neq; congruence).
    rewrite E, andb_false_r. reflexivity.
Qed.

(** Calls that only write cells of one sheet. *)
Lemma cell_value_other_sheet (sheet s : string) (r c : nat) (ops : list xlsx_op) :
  s <> sheet ->
  Forall (fun op => match op with WriteCell s' _ _ _ _ => s' = sheet | _ => True end) ops ->
  cell_value s r c ops = None.
Proof.
  intros Hs H. apply cell_value_none.
  eapply Forall_impl; [|exact H]. intros [| |s' r' c' v f]; auto.
  intros ->. left. congruence.
Qed.

Section RowLayout.

(** A sheet section writing [f row l] for the line [l] at [row], then the
    following lines on the following rows. *)
Variable f : nat -> JournalEntryLine -> list xlsx_op.
Variable g : nat -> list JournalEntryLine -> list xlsx_op.
Variable sheet : string.
Hypothesis g_nil : forall row, g row [] = [].
Hypothesis g_cons : forall row l ls, g row (l :: ls) = (f row l ++ g (S row) ls)%list.
Hypothesis f_row : forall row l,
  Forall (fun op => match op with
                    | WriteCell s' r' _ _ _ => s' = sheet /\ r' = row
                    | _ => True end) (f row l).

Lemma rows_below (row : nat) (ls : list JournalEntryLine) :
  Forall (fun op => match op with
                    | WriteCell s' r' _ _ _ => s' = sheet /\ (row <= r')%nat
                    | _ => True end) (g row ls).
Proof.
  revert row. induction ls as [|l ls IH]; intros row.
  - rewrite g_nil. constructor.
  - rewrite g_cons. apply Forall_app. split.
    + eapply Forall_impl; [|apply f_row]. intros [| |s' r' c' v fm]; auto.
      intros [-> ->]. auto.
    + eapply Forall_impl; [|apply IH]. intros [| |s' r' c' v fm]; auto.
      intros [-> H]. split; [reflexivity|lia].
Qed.

Lemma rows_cell (row i c : nat) (ls : list JournalEntryLine) :
  cell_value sheet (row + i) c (g row ls) =
  match nth_error ls i with
  | Some l => cell_value sheet (row + i) c (f (row + i) l)
  | None => None
  end.
Proof.
  revert row i. induction ls as [|l ls IH]; intros row i.
  - rewrite g_nil. destruct i; reflexivity.
  - rewrite g_cons, cell_value_app. destruct i as [|j].
    + rewrite cell_value_none.
      * cbn [nth_error]. rewrite Nat.add_0_r. reflexivity.
      * eapply Forall_impl; [|apply rows_below]. intros [| |s' r' c' v fm]; auto.
        intros [_ H]. right. left. lia.
    + replace (row + S j)%nat with (S row + j)%nat by lia. rewrite IH. cbn [nth_error].
      assert (Hf : cell_value sheet (S row + j) c (f row l) = None).
      { apply cell_value_none. eapply Forall_impl; [|apply f_row].
        intros [| |s' r' c' v fm]; auto. intros [_ ->]. right. left. lia. }
      rewrite Hf. destruct (nth_error ls j) as [l'|]; [|reflexivity].
      destruct (cell_value sheet (S row + j) c (f (S row + j) l')); reflexivity.
Qed.

End RowLayout.

Lemma detail_line_ops_row (je : JournalEntry) (row : nat) (l : JournalEntryLine) :
  Forall (fun op => match op with
                    | WriteCell s' r' _ _ _ => s' = detail_sheet /\ r' = row
                    | _ => True end) (detail_line_ops je row l).
Proof.
  unfold detail_line_ops.
  destruct (Qltb 0 (debit l)), (Qltb 0 (credit l)); repeat constructor.
Qed.

Lemma netsuite_line_ops_row (je : JournalEntry) (row : nat) (l : JournalEntryLine) :
  Forall (fun op => match op with
                    | WriteCell s' r' _ _ _ => s' = netsuite_sheet /\ r' = row
                    | _ => True end) (netsuite_line_ops je row l).
Proof.
  unfold netsuite_line_ops.
  destruct (Qltb 0 (debit l)), (Qltb 0 (credit l)); repeat constructor.
Qed.

Lemma detail_rows_cell (je : JournalEntry) (row i c : nat) (ls : list JournalEntryLine) :
  cell_value detail_sheet (row + i) c (detail_rows je row ls) =
  match nth_error ls i with
  | Some l => cell_value detail_sheet (row + i) c (detail_line_ops je (row + i) l)
  | None => None
  end.
Proof.
  apply (rows_cell (detail_line_ops je) (detail_rows je) detail_sheet);
    [reflexivity | reflexivity | apply detail_line_ops_row].
Qed.

Lemma netsuite_rows_cell (je : JournalEntry) (row i c : nat) (ls : list JournalEntryLine) :
  cell_value netsuite_sheet (row + i) c (netsuite_rows je row ls) =
  match nth_error ls i with
  | Some l => cell_value netsuite_sheet (row + i) c (netsuite_line_ops je (row + i) l)
  | None => None
  end.
Proof.
  apply (rows_cell (netsuite_line_ops je) (netsuite_rows je) netsuite_sheet);
    [reflexivity | reflexivity | apply netsuite_line_ops_row].
Qed.

Lemma summary_ops_sheet (je : JournalEntry) :
  Forall (fun op => match op with WriteCell s' _ _ _ _ => s' = summary_sheet | _ => True end)
    (summary_ops je).
Proof. repeat constructor. Qed.

Lemma detail_ops_sheet (je : JournalEntry) :
  Forall (fun op => match op with WriteCell s' _ _ _ _ => s' = detail_sheet | _ => True end)
    (detail_ops je).
Proof.
  unfold detail_ops. repeat (apply Forall_app; split); [repeat constructor| repeat constructor|].
  eapply Forall_impl; [|apply (rows_below (detail_line_ops je) (detail_rows je) detail_sheet)];
    [| reflexivity | reflexivity | apply detail_line_ops_row].
  intros [| |s' r' c' v fm]; auto. intros [-> _]. reflexivity.
Qed.

Lemma netsuite_ops_sheet strftime (je : JournalEntry) :
  Forall (fun op => match op with WriteCell s' _ _ _ _ => s' = netsuite_sheet | _ => True end)
    (netsuite_ops strftime je).
Proof.
  unfold netsuite_ops. apply Forall_app; split; [repeat constructor|].
  eapply Forall_impl;
    [|apply (rows_below (netsuite_line_ops je) (netsuite_rows je) netsuite_sheet)];
    [| reflexivity | reflexivity | apply netsuite_line_ops_row].
  intros [| |s' r' c' v fm]; auto. intros [-> _]. reflexivity.
Qed.

Lemma workbook_summary_cell strftime (je : JournalEntry) (r c : nat) :
  cell_value summary_sheet r c (journal_entry_workbook strftime je) =
  cell_value summary_sheet r c (summary_ops je).
Proof.
  unfold journal_entry_workbook. rewrite !cell_value_app.
  rewrite (cell_value_other_sheet netsuite_sheet);
    [| unfold summary_sheet, netsuite_sheet; discriminate | apply netsuite_ops_sheet].
  rewrite (cell_value_other_sheet detail_sheet);
    [| unfold summary_sheet, detail_sheet; discriminate | apply detail_ops_sheet].
  reflexivity.
Qed.

Lemma workbook_detail_cell strftime (je : JournalEntry) (r c : nat) :
  cell_value detail_sheet r c (journal_entry_workbook strftime je) =
  cell_value detail_sheet r c (detail_ops je).
Proof.
  unfold journal_entry_workbook. rewrite !cell_value_app.
  rewrite (cell_value_other_sheet netsuite_sheet);
    [| unfold detail_sheet, netsuite_sheet; discriminate | apply netsuite_ops_sheet].
  destruct (cell_value detail_sheet r c (detail_ops je)); [reflexivity|].
  apply (cell_value_other_sheet summary_sheet);
    [unfold summary_sheet, detail_sheet; discriminate | apply summary_ops_sheet].
Qed.

Lemma workbook_netsuite_cell strftime (je : JournalEntry) (r c : nat) :
  cell_value netsuite_sheet r c (journal_entry_workbook strftime je) =
  cell_value netsuite_sheet r c (netsuite_ops strftime je).
Proof.
  unfold journal_entry_workbook. rewrite !cell_value_app.
  destruct (cell_value netsuite_sheet r c (netsuite_ops strftime je)); [reflexivity|].
  rewrite (cell_value_other_sheet detail_sheet);
    [| unfold detail_sheet, netsuite_sheet; discriminate | apply detail_ops_sheet].
  apply (cell_value_other_sheet summary_sheet);
    [unfold summary_sheet, netsuite_sheet; discriminate | apply summary_ops_sheet].
Qed.

(** The cells of the detail sheet below the header row come from the lines. *)
Lemma detail_ops_line_cell (je : JournalEntry) (i c : nat) :
  cell_value detail_sheet (S i) c (detail_ops je) =
  match nth_error (lines je) i with
  | Some l => cell_value detail_sheet (S i) c (detail_line_ops je (S i) l)
  | None => None
  end.
Proof.
  unfold detail_ops. rewrite !cell_value_app.
  pose proof (detail_rows_cell je 1 i c (lines je)) as H. cbn [Nat.add] in H. rewrite H.
  destruct (nth_error (lines je) i) as [l|].
  - destruct (cell_value detail_sheet (S i) c (detail_line_ops je (S i) l)); [reflexivity|].
    rewrite cell_value_none; [reflexivity|].
    cbn. repeat (apply Forall_cons; [right; left; discriminate|]); apply Forall_nil.
  - rewrite cell_value_none; [reflexivity|].
    cbn. repeat (apply Forall_cons; [right; left; discriminate|]); apply Forall_nil.
Qed.


(** X11: in the "Journal Entry Details" sheet, the row after the header row
    [i] (counted from 0) holds line [i] of the entry: its account name, its
    debit in the "Debit" column (blank text when the debit is not positive)
    and its credit in the "Credit" column (likewise); every cell of a row
    past the last line is empty. *)
Theorem journal_entry_workbook_detail_lines strftime (je : JournalEntry) (i : nat) :
  let wb := journal_entry_workbook strftime je in
  cell_value detail_sheet (S i) 4 wb =
    option_map (fun l => CStr (account_name l)) (nth_error (lines je) i) /\
  cell_value detail_sheet (S i) 5 wb =
    option_map (fun l => if Qltb 0 (debit l) then CNum (debit l) else CStr "")
      (nth_error (lines je) i) /\
  cell_value detail_sheet (S i) 6 wb =
    option_map (fun l => if Qltb 0 (credit l) then CNum (credit l) else CStr "")
      (nth_error (lines je) i) /\
  (forall c, (List.length (lines je) <= i)%nat -> cell_value detail_sheet (S i) c wb = None).
Proof.
  cbv zeta.
  assert (Hpast : forall c, (List.length (lines je) <= i)%nat ->
            cell_value detail_sheet (S i) c (journal_entry_workbook strftime je) = None).
  { intros c Hi. rewrite workbook_detail_cell, detail_ops_line_cell.
    rewrite (proj2 (nth_error_None (lines je) i) Hi). reflexivity. }
  refine (conj _ (conj _ (conj _ Hpast))).
  all: rewrite workbook_detail_cell, detail_ops_line_cell.
  all: destruct (nth_error (lines je) i) as [l|]; [|reflexivity].
  all: unfold detail_line_ops; cbn [option_map].
  all: destruct (Qltb 0 (debit l)), (Qltb 0 (credit l)); cbn; rewrite ?Nat.eqb_refl;
    reflexivity.
Qed.

Lemma netsuite_rows_none_below (je : JournalEntry) (row r c : nat)
  (ls : list JournalEntryLine) :
  (r < row)%nat -> cell_value netsuite_sheet r c (netsuite_rows je row ls) = None.
Proof.
  revert row. induction ls as [|l ls IH]; intros row Hr; [reflexivity|].
  cbn [netsuite_rows]. rewrite cell_value_app, IH by lia.
  assert (E : (r =? row)%nat = false) by (apply Nat.eqb_neq; lia).
  unfold netsuite_line_ops.
  destruct (Qltb 0 (debit l)), (Qltb 0 (credit l)); cbn [List.app cell_value];
    rewrite E, ?andb_false_r; reflexivity.
Qed.

(** X12: in the "NetSuite Import Format" sheet, row 6 (index 5) is left
    blank between the headers and the lines; row [7 + i] (index [6 + i])
    holds line [i]: its account name, its debit only when positive and its
    credit only when positive (otherwise the cell is never written). *)
Theorem journal_entry_workbook_netsuite_lines strftime (je : JournalEntry) (i c : nat) :
  let wb := journal_entry_workbook strftime je in
  cell_value netsuite_sheet 5 c wb = None /\
  cell_value netsuite_sheet (6 + i) 0 wb =
    option_map (fun l => CStr (account_name l)) (nth_error (lines je) i) /\
  cell_value netsuite_sheet (6 + i) 1 wb =
    match nth_error (lines je) i with
    | Some l => if Qltb 0 (debit l) then Some (CNum (debit l)) else None
    | None => None
    end /\
  cell_value netsuite_sheet (6 + i) 2 wb =
    match nth_error (lines je) i with
    | Some l => if Qltb 0 (credit l) then Some (CNum (credit l)) else None
    | None => None
    end.
Proof.
  cbv zeta. rewrite !workbook_netsuite_cell. unfold netsuite_ops.
  rewrite !cell_value_app, netsuite_rows_none_below by lia.
  rewrite !netsuite_rows_cell.
  split; [reflexivity|].
  destruct (nth_error (lines je) i) as [l|]; [|repeat split].
  unfold netsuite_line_ops. cbn [option_map].
  destruct (Qltb 0 (debit l)), (Qltb 0 (credit l)); cbn; rewrite ?Nat.eqb_refl;
    repeat split.
Qed.

Lemma detail_balanced_cell (je : JournalEntry) (i : nat) (l : JournalEntryLine) :
  nth_error (lines je) i = Some l ->
  cell_value detail_sheet (S i) 9 (detail_ops je) =
  Some (CStr (yes_no (is_balanced je))).
Proof.
  intros H. rewrite detail_ops_line_cell, H. unfold detail_line_ops.
  cbn. rewrite Nat.eqb_refl. reflexivity.
Qed.

(** X13: the workbook exported for an entry built from an invoice shows
    "Yes" under "Balanced?" on the "Summary" sheet and on both line rows
    of the "Journal Entry Details" sheet, and the details sheet has
    nothing below its two line rows. *)
Theorem build_journal_entry_workbook_balanced strftime (invoice : InvoiceData) :
  let wb := journal_entry_workbook strftime (build_journal_entry invoice) in
  cell_value summary_sheet 9 1 wb = Some (CStr "Yes") /\
  cell_value detail_sheet 1 9 wb = Some (CStr "Yes") /\
  cell_value detail_sheet 2 9 wb = Some (CStr "Yes") /\
  (forall r c, (3 <= r)%nat -> cell_value detail_sheet r c wb = None).
Proof.
  cbv zeta. rewrite !workbook_summary_cell, !workbook_detail_cell.
  split; [|split; [|split]].
  - transitivity (Some (CStr (yes_no (is_balanced (build_journal_entry invoice)))));
      [reflexivity | rewrite build_journal_entry_balanced; reflexivity].
  - erewrite detail_balanced_cell by reflexivity.
    rewrite build_journal_entry_balanced. reflexivity.
  - erewrite detail_balanced_cell by reflexivity.
    rewrite build_journal_entry_balanced. reflexivity.
  - intros r c Hr. destruct r as [|i]; [lia|].
    rewrite workbook_detail_cell, detail_ops_line_cell.
    assert (E : nth_error (lines (build_journal_entry invoice)) i = None)
      by (apply nth_error_None; cbn; lia).
    rewrite E. reflexivity.
Qed.

(* ------------------------------------------------------------------ *)
(** ** Instances of the further properties *)

Lemma process_invoice_success_witness :
  sample_agent "a.pdf" = inr (sample_invoice "INV-1" 500) /\
  sample_run_auto =
    (inr (Some (with_workbook sample_entry "journal_entry_INV-1.xlsx")),
     snd sample_run_auto) /\
  exists f,
    sample_excel (build_journal_entry (sample_invoice "INV-1" 500)) = inr f /\
    with_workbook sample_entry "journal_entry_INV-1.xlsx" =
      with_workbook (build_journal_entry (sample_invoice "INV-1" 500)) f /\
    postings (w_trace (snd sample_run_auto)) =
      (postings (w_trace empty_world) ++ [("INV-1", true, "JE-1001")])%list.
Proof.
  split; [reflexivity|]. split; [vm_compute; reflexivity|].
  exact (process_invoice_success sample_float_str sample_agent sample_review_approve
           sample_excel 0%Z "a.pdf" (sample_invoice "INV-1" 500) empty_world
           (snd sample_run_auto) (with_workbook sample_entry "journal_entry_INV-1.xlsx")
           eq_refl ltac:(vm_compute; reflexivity)).
Defined.

Lemma process_invoice_extraction_failure_witness :
  sample_agent "c.pdf" = inl (ValueError "unreadable document") /\
  process_invoice sample_float_str sample_agent sample_review_approve sample_excel 0%Z
    "c.pdf" empty_world =
    (inl (ValueError "unreadable document"), extend empty_world [EvExtract "c.pdf"]).
Proof.
  split; [reflexivity|].
  apply (process_invoice_extraction_failure sample_float_str sample_agent
           sample_review_approve sample_excel 0%Z "c.pdf"
           (ValueError "unreadable document") empty_world).
  reflexivity.
Defined.

Lemma entity_maybe_approve_float_witness :
  row_get (sample_entity_row 1500) "amount" = Some (PyFloat 1500) /\
  WithEntity.maybe_approve sample_entity_review (sample_entity_row 1500) empty_world =
  if Qltb 1500 1000
  then (inr (sample_entity_row 1500), extend empty_world [EvRule (mkRuleInput 1500 1000)])
  else (inr (sample_entity_review (sample_entity_row 1500) (sample_entity_row 1500)),
        extend empty_world [EvRule (mkRuleInput 1500 1000);
                            EvHumanReviewRow (sample_entity_row 1500)]).
Proof.
  split; [reflexivity|].
  apply (entity_maybe_approve_float sample_entity_review (sample_entity_row 1500) 1500
           empty_world).
  reflexivity.
Defined.

Lemma journal_entry_workbook_detail_lines_witness :
  (List.length (lines sample_entry) <= 2)%nat /\
  cell_value detail_sheet 3 7 (journal_entry_workbook (fun _ _ => ""%string) sample_entry)
  = None.
Proof.
  split; [cbn; lia|].
  apply (proj2 (proj2 (proj2 (journal_entry_workbook_detail_lines (fun _ _ => ""%string)
                                 sample_entry 2)))).
  cbn. lia.
Defined.

Lemma build_journal_entry_workbook_balanced_witness :
  (3 <= 4)%nat /\
  cell_value detail_sheet 4 0
    (journal_entry_workbook (fun _ _ => ""%string) (build_journal_entry (sample_invoice "INV-1" 500)))
  = None.
Proof.
  split; [lia|].
  apply (proj2 (proj2 (proj2 (build_journal_entry_workbook_balanced (fun _ _ => ""%string)
                                 (sample_invoice "INV-1" 500))))).
  lia.
Defined.

(* ------------------------------------------------------------------ *)
(** ** Further properties of the entity workflow *)

(** [maybe_approve] of the entity workflow does not touch the table. *)
Lemma entity_maybe_approve_store (human_review : row -> row -> row) (invoice : row)
  (w : world) :
  w_store (snd (WithEntity.maybe_approve human_review invoice w)) = w_store w.
Proof.
  unfold WithEntity.maybe_approve, WithEntity.getattr.
  destruct (row_get invoice "amount") as [[s|q|d|]|]; try reflexivity.
  cbn. destruct (Qltb q 1000); reflexivity.
Qed.

(** [process_invoice_with_entity], run. *)
Lemma process_invoice_with_entity_run float_str datetime_str invoice_agent human_review
  (schema : list string) (invoice_file : PlanarFile) (w : world) :
  WithEntity.process_invoice_with_entity float_str datetime_str invoice_agent human_review
    schema invoice_file w =
  let w1 := extend w [EvExtract invoice_file] in
  match invoice_agent invoice_file with
  | inl e => (inl e, w1)
  | inr invoice =>
      if existsb (String.eqb "invoice_number") schema then
        match row_get invoice "invoice_number" with
        | None => (inl (AttributeError "'Invoice' object has no attribute 'invoice_number'"), w1)
        | Some v =>
            match WithEntity.maybe_approve human_review invoice
                    (extend w1 [EvDupQuery "invoice_number" v]) with
            | (inl e, w') => (inl e, w')
            | (inr r, w') => (inr (Some r), w')
            end
        end
      else (inl (AttributeError "type object 'Invoice' has no attribute 'invoice_number'"), w1)
  end.
Proof.
  unfold WithEntity.process_invoice_with_entity, WithEntity.extract_invoice.
  cbv zeta. unfold bind at 1 2, emit, lift. cbv beta iota.
  fold (extend w [EvExtract invoice_file]).
  destruct (invoice_agent invoice_file) as [e|invoice]; [reflexivity|].
  unfold bind at 1. rewrite verify_unique_invoice_step_run.
  destruct (existsb (String.eqb "invoice_number") schema); [|reflexivity].
  destruct (row_get invoice "invoice_number") as [v|]; [|reflexivity].
  cbn [ro_approved]. unfold bind, ret.
  destruct (WithEntity.maybe_approve human_review invoice _) as [[e|r] w']; reflexivity.
Qed.

(** X14: with the [Invoice] entity as declared (no [invoice_number]
    column), [process_invoice_with_entity] never completes: it raises the
    extraction error or, after every successful extraction, the
    [AttributeError] of [Invoice.invoice_number]; the rule, the review and
    any query of the table are never reached. *)
Theorem process_invoice_with_entity_declared_always_raises float_str datetime_str
  invoice_agent human_review (invoice_file : PlanarFile) (w : world) :
  WithEntity.process_invoice_with_entity float_str datetime_str invoice_agent human_review
    invoice_columns invoice_file w =
  (inl (match invoice_agent invoice_file with
        | inl e => e
        | inr _ => AttributeError "type object 'Invoice' has no attribute 'invoice_number'"
        end),
   extend w [EvExtract invoice_file]).
Proof.
  rewrite process_invoice_with_entity_run. cbv zeta.
  destruct (invoice_agent invoice_file); reflexivity.
Qed.

(** X15: whatever the table's columns, [process_invoice_with_entity] never
    returns the implicit [None] (the uniqueness step never answers
    [approved=False]) and never changes the invoice table. *)
Theorem process_invoice_with_entity_never_none_read_only float_str datetime_str
  invoice_agent human_review (schema : list string) (invoice_file : PlanarFile) (w : world) :
  let '(r, w') := WithEntity.process_invoice_with_entity float_str datetime_str
                    invoice_agent human_review schema invoice_file w in
  r <> inr None /\ w_store w' = w_store w.
Proof.
  rewrite process_invoice_with_entity_run. cbv zeta.
  destruct (invoice_agent invoice_file) as [e|invoice];
    [split; [discriminate | reflexivity]|].
  destruct (existsb (String.eqb "invoice_number") schema);
    [|split; [discriminate | reflexivity]].
  destruct (row_get invoice "invoice_number") as [v|];
    [|split; [discriminate | reflexivity]].
  pose proof (entity_maybe_approve_store human_review invoice
                (extend (extend w [EvExtract invoice_file]) [EvDupQuery "invoice_number" v])) as Hs.
  destruct (WithEntity.maybe_approve human_review invoice _) as [[e|r] w'];
    cbn in Hs |- *; (split; [discriminate | exact Hs]).
Qed.
